(** * GoldSight: a shallow embedding of the routing, navigation highlighting,
    cached-chart loading, dataset preview, model comparison table and
    chapter progress components of the GoldSight web application. *)

From Stdlib Require Import String List Bool ZArith QArith Lia.
From Stdlib Require Import DecimalString.
Import ListNotations.
Open Scope string_scope.
Set Warnings "-register-all".


(** ** Python-level conventions shared by the modules below *)

(** An exception raised by a Python call: its class name and its message
    ([str(e)]). *)
Inductive exc : Type :=
| Exc (cls : string) (msg : string).

Definition exc_str (e : exc) : string :=
  match e with Exc _ m => m end.

(** The outcome of a Python call: a value or a raised exception. *)
Inductive res (A : Type) : Type :=
| Ok (a : A)
| Raise (e : exc).
Arguments Ok {A} a.
Arguments Raise {A} e.

Definition bind {A B} (m : res A) (k : A -> res B) : res B :=
  match m with
  | Ok a => k a
  | Raise e => Raise e
  end.

Notation "x <- m ;; k" := (bind m (fun x => k))
  (at level 61, m at next level, right associativity).

(** [try: body except Exception as e: handler(e)] *)
Definition try_except {A} (body : res A) (handler : exc -> res A) : res A :=
  match body with
  | Ok a => Ok a
  | Raise e => handler e
  end.

(** Substring test ([sub in s]). *)
Fixpoint contains (s sub : string) : bool :=
  prefix sub s ||
  match s with
  | EmptyString => false
  | String _ s' => contains s' sub
  end.

(** [str(n)] for a non-negative integer. *)
Definition str_nat (n : nat) : string :=
  NilZero.string_of_uint (Nat.to_uint n).

(** ** The navigation bar state ([components/navbar.py]) *)
Module Navbar.

(** [self.router.url.path]: a string, or [None]. *)
Definition router_path := option string.

(** [path if path else "/"]: Python truthiness of a string or [None]. *)
Definition current_route (path : router_path) : string :=
  match path with
  | None => "/"
  | Some p => if String.eqb p "" then "/" else p
  end.

Definition is_home_active (path : router_path) : bool :=
  String.eqb (current_route path) "/".

Definition is_data_collection_active (path : router_path) : bool :=
  let current := current_route path in
  String.eqb current "/data-collection" || String.eqb current "/data-collection/".

Definition is_eda_active (path : router_path) : bool :=
  let current := current_route path in
  String.eqb current "/eda" || String.eqb current "/eda/".

Definition is_modeling_active (path : router_path) : bool :=
  let current := current_route path in
  String.eqb current "/modeling" || String.eqb current "/modeling/".

Definition is_forecast_active (path : router_path) : bool :=
  let current := current_route path in
  String.eqb current "/forecast" || String.eqb current "/forecast/".

(** The five predicates, in the order of the links of the bar. *)
Definition active_flags (path : router_path) : list bool :=
  [is_home_active path; is_data_collection_active path; is_eda_active path;
   is_modeling_active path; is_forecast_active path].

Definition count_true (l : list bool) : nat :=
  length (filter (fun b => b) l).

End Navbar.

(** ** The application and its pages ([goldsight.py]) *)
Module App.

Inductive page : Type :=
| home_page
| data_collection_page
| eda_page
| modeling_page
| forecast_page.

Record page_entry : Type := mk_entry {
  entry_route : string;
  entry_page : page;
  entry_title : string
}.

(** The pages registered by the application, in registration order. *)
Definition app := list page_entry.

Definition empty_app : app := [].

Definition add_page (a : app) (component : page) (route title : string) : app :=
  (a ++ [mk_entry route component title])%list.

Definition goldsight_app : app :=
  let a := empty_app in
  let a := add_page a home_page "/" "Home - Gold Price Prediction" in
  let a := add_page a data_collection_page "/data-collection" "Data Collection" in
  let a := add_page a eda_page "/eda" "Exploratory Data Analysis" in
  let a := add_page a modeling_page "/modeling" "Model Training" in
  let a := add_page a forecast_page "/forecast" "Forecast" in
  a.

Definition routes (a : app) : list (string * page) :=
  map (fun e => (entry_route e, entry_page e)) a.

End App.

(** ** Loading a cached Plotly chart ([pages/eda.py], [load_plotly_chart]) *)
Module ChartLoader.

(** JSON values as produced by [json.load]. *)
Inductive json : Type :=
| JNull
| JBool (b : bool)
| JNum (q : Q)
| JStr (s : string)
| JArr (l : list json)
| JObj (fields : list (string * json)).

Record annotation : Type := mk_annotation {
  ann_text : string;
  ann_showarrow : bool;
  ann_x : Q;
  ann_y : Q;
  ann_font_size : Z;
  ann_font_color : string
}.

Record layout : Type := mk_layout {
  lay_title : option string;
  lay_annotations : list annotation;
  lay_height : option Z
}.

Record figure : Type := mk_figure {
  fig_data : list json;
  fig_layout : layout
}.

(** [go.Figure()]: no traces, default layout. *)
Definition empty_figure : figure :=
  mk_figure [] (mk_layout None [] None).

(** [fig.update_layout(title=..., annotations=[...], height=...)] *)
Definition update_layout (f : figure) (title : string) (anns : list annotation)
    (height : Z) : figure :=
  mk_figure (fig_data f) (mk_layout (Some title) anns (Some height)).

(** The state of a file on disk, as seen by [Path.exists] and [open]. *)
Inductive file_state : Type :=
| Missing
| Present (contents : string)
| Unreadable (e : exc).

Definition filesystem := string -> file_state.

(** [Path(__file__).parent.parent / "data" / "cache"], with [__file__]
    being [goldsight/pages/eda.py]. *)
Definition cache_dir : string := "goldsight/data/cache".

Definition cache_path (chart_name : string) : string :=
  cache_dir ++ "/" ++ chart_name ++ ".json".

Definition path_exists (fs : filesystem) (p : string) : bool :=
  match fs p with
  | Missing => false
  | _ => true
  end.

(** [with open(p, 'r') as f: f.read()] *)
Definition open_read (fs : filesystem) (p : string) : res string :=
  match fs p with
  | Missing => Raise (Exc "FileNotFoundError" ("[Errno 2] No such file or directory: '" ++ p ++ "'"))
  | Present c => Ok c
  | Unreadable e => Raise e
  end.

Definition not_found_figure (chart_name : string) : figure :=
  update_layout empty_figure
    ("Chart '" ++ chart_name ++ "' not found")
    [mk_annotation ("Run explore.ipynb to generate " ++ chart_name ++ ".json")
       false (1#2) (1#2) 16 "gray"]
    400.

Definition error_figure (chart_name : string) (e : exc) : figure :=
  update_layout empty_figure
    ("Error loading '" ++ chart_name ++ "'")
    [mk_annotation ("Error: " ++ exc_str e) false (1#2) (1#2) 14 "red"]
    400.

Section Loader.

(** [json.load] on the file contents, and [go.Figure(fig_dict)]: library
    code, any behaviour, each of which may raise. *)
Variable json_load : string -> res json.
Variable go_Figure : json -> res figure.

(** The body of the [try] block. *)
Definition load_body (fs : filesystem) (chart_name : string) : res figure :=
  let p := cache_path chart_name in
  if negb (path_exists fs p) then Ok (not_found_figure chart_name)
  else
    contents <- open_read fs p ;;
    fig_dict <- json_load contents ;;
    go_Figure fig_dict.

Definition load_plotly_chart (fs : filesystem) (chart_name : string) : res figure :=
  try_except (load_body fs chart_name)
    (fun e => Ok (error_figure chart_name e)).

End Loader.

End ChartLoader.

(** ** The dataset overview section ([pages/eda.py], [dataset_overview]) *)
Module Dataset.

(** A value of a cell of a DataFrame read by [pd.read_csv]. *)
Inductive cell : Type :=
| CFloat (q : Q)
| CNaN
| CInt (z : Z)
| CStr (s : string).

Inductive dtype : Type :=
| Float64
| Float32
| Int64
| Object.

Record dataframe : Type := mk_df {
  df_columns : list (string * dtype);
  df_rows : list (list cell)
}.

(** [df.head(10)] *)
Definition head (n : nat) (df : dataframe) : dataframe :=
  mk_df (df_columns df) (firstn n (df_rows df)).

Definition is_float_dtype (d : dtype) : bool :=
  match d with
  | Float64 | Float32 => true
  | _ => false
  end.

(** [str(z)] for an integer. *)
Definition str_Z (z : Z) : string :=
  NilZero.string_of_int (Z.to_int z).

Record preview : Type := mk_preview {
  pv_caption : string;
  pv_header : list string;
  pv_body : list (list string)
}.

(** The rendered section: the values of the two data-dependent metric
    cards and the preview box, [None] standing for the empty [rx.box()]. *)
Record overview : Type := mk_overview {
  ov_features : string;
  ov_observations : string;
  ov_preview : option preview
}.

Definition overview_heading : string := "Dataset Overview".
Definition overview_intro : string :=
  "After alignment and preprocessing, we have a unified monthly dataset spanning 19.5 years. " ++
  "All 17 features are synchronized to end-of-month dates".
Definition preview_heading : string := "Dataset Preview (First 10 Rows)".

(** Every text the section displays. *)
Definition overview_texts (ov : overview) : list string :=
  [overview_heading; overview_intro;
   "Total Features"; ov_features ov;
   "Time Span"; "19.5 Years";
   "Monthly Observations"; ov_observations ov] ++
  match ov_preview ov with
  | None => []
  | Some p => preview_heading :: pv_caption p :: pv_header p ++ concat (pv_body p)
  end.

Section Overview.

(** [f"{x:.2f}"] and [str(x)] of a float: float formatting. *)
Variable fmt2 : Q -> string.
Variable float_str : Q -> string.

(** [lambda x: f"{x:.2f}" if pd.notna(x) else ""] *)
Definition format_float_cell (c : cell) : cell :=
  match c with
  | CFloat q => CStr (fmt2 q)
  | CNaN => CStr ""
  | c => c
  end.

(** The loop over the columns: float columns are formatted, the others
    kept. *)
Definition format_row (cols : list (string * dtype)) (row : list cell) : list cell :=
  map (fun '((_, d), c) => if is_float_dtype d then format_float_cell c else c)
    (combine cols row).

(** [str(cell) if cell != "" else "-"] *)
Definition render_cell (c : cell) : string :=
  match c with
  | CStr s => if String.eqb s "" then "-" else s
  | CFloat q => float_str q
  | CNaN => "nan"
  | CInt z => str_Z z
  end.

(** The variables assigned by the [try]/[except] block. *)
Record loaded : Type := mk_loaded {
  ld_columns : list string;
  ld_rows : list (list cell);
  ld_data_loaded : bool;
  ld_total_rows : nat;
  ld_total_cols : nat
}.

Definition load_block (read_csv : res dataframe) : res loaded :=
  try_except
    (df <- read_csv ;;
     let df_preview := head 10 df in
     let rows := map (format_row (df_columns df_preview)) (df_rows df_preview) in
     let columns := map fst (df_columns df_preview) in
     Ok (mk_loaded columns rows true (length (df_rows df)) (length (df_columns df))))
    (fun e =>
       Ok (mk_loaded ["Error"] [[CStr ("Could not load data: " ++ exc_str e)]]
             false 0 0)).

Definition caption (total_rows total_cols : nat) : string :=
  "Showing 10 of " ++ str_nat total_rows ++ " rows • " ++ str_nat total_cols ++ " columns".

(** [dataset_overview()], reading the CSV with the given outcome of
    [pd.read_csv(data_path)]. *)
Definition dataset_overview (read_csv : res dataframe) : res overview :=
  ld <- load_block read_csv ;;
  let data_loaded := ld_data_loaded ld in
  let table :=
    mk_preview (caption (ld_total_rows ld) (ld_total_cols ld))
      (ld_columns ld) (map (map render_cell) (ld_rows ld)) in
  Ok (mk_overview
        (if data_loaded then str_nat (ld_total_cols ld) else "17")
        (if data_loaded then str_nat (ld_total_rows ld) else "233")
        (if data_loaded then Some table else None)).

End Overview.

End Dataset.

(** ** The model comparison table ([pages/modeling.py],
    [comparison_table_section]) *)
Module Modeling.

(** A Python float: NaN, the two infinities, or a finite value. *)
Inductive pyfloat : Type :=
| NaN
| NInf
| Fin (q : Q)
| PInf.

(** [a > b]: false as soon as one side is NaN. *)
Definition py_gt (a b : pyfloat) : bool :=
  match a, b with
  | Fin x, Fin y => negb (Qle_bool x y)
  | PInf, (NInf | Fin _) => true
  | Fin _, NInf => true
  | _, _ => false
  end.

(** [a == b]: NaN equals nothing, not even itself. *)
Definition py_eq (a b : pyfloat) : bool :=
  match a, b with
  | Fin x, Fin y => Qeq_bool x y
  | PInf, PInf => true
  | NInf, NInf => true
  | _, _ => false
  end.

(** [max(values)]: the first element, replaced by each later one that is
    greater than it. *)
Fixpoint max_from (cur : pyfloat) (l : list pyfloat) : pyfloat :=
  match l with
  | [] => cur
  | x :: l' => max_from (if py_gt x cur then x else cur) l'
  end.

Definition py_max (l : list pyfloat) : res pyfloat :=
  match l with
  | [] => Raise (Exc "ValueError" "max() arg is an empty sequence")
  | x :: l' => Ok (max_from x l')
  end.

(** [row[i]] on a list of strings. *)
Definition getitem (row : list string) (i : nat) : res string :=
  match nth_error row i with
  | Some s => Ok s
  | None => Raise (Exc "IndexError" "list index out of range")
  end.

Fixpoint mapM {A B} (f : A -> res B) (l : list A) : res (list B) :=
  match l with
  | [] => Ok []
  | x :: l' => y <- f x ;; ys <- mapM f l' ;; Ok (y :: ys)
  end.

Inductive badge_color : Type :=
| Green
| Gray.

(** One row of the rendered table: whether it is the highlighted best row
    (green background, bold font, trophy icon), the five cells, and the
    colour of the R² badge. *)
Record table_row : Type := mk_row {
  tr_best : bool;
  tr_name : string;
  tr_r2 : string;
  tr_badge : badge_color;
  tr_rmse : string;
  tr_mae : string;
  tr_notes : string
}.

Record table : Type := mk_table {
  tbl_title : string;
  tbl_description : string;
  tbl_rows : list table_row
}.

Definition threshold : pyfloat := Fin (9 # 10).

Section Comparison.

(** [float(s.replace("−", "-"))]: float parsing, which raises
    [ValueError] on a string that is not a float. *)
Variable r2_value : string -> res pyfloat.

Definition r2_of (row : list string) : res pyfloat :=
  s <- getitem row 1 ;; r2_value s.

(** [next(i for i, row in enumerate(data) if r2_of(row) == best_r2)],
    enumerating from [i]. *)
Fixpoint next_index (best : pyfloat) (i : nat) (data : list (list string)) : res nat :=
  match data with
  | [] => Raise (Exc "StopIteration" "")
  | row :: data' =>
      v <- r2_of row ;;
      if py_eq v best then Ok i else next_index best (S i) data'
  end.

Definition find_best (data : list (list string)) (highlight_best : bool) : res nat :=
  if highlight_best && (0 <? length data)%nat then
    values <- mapM r2_of data ;;
    best_r2 <- py_max values ;;
    next_index best_r2 0 data
  else Ok 0%nat.

Definition build_row (best_idx : nat) (highlight_best : bool) (idx : nat)
    (row : list string) : res table_row :=
  let is_best := Nat.eqb idx best_idx && highlight_best in
  name <- getitem row 0 ;;
  r2 <- getitem row 1 ;;
  v <- r2_value r2 ;;
  rmse <- getitem row 2 ;;
  mae <- getitem row 3 ;;
  notes <- getitem row 4 ;;
  Ok (mk_row is_best name r2 (if py_gt v threshold then Green else Gray) rmse mae notes).

(** The [for idx, row in enumerate(data)] loop. *)
Fixpoint build_rows (best_idx : nat) (highlight_best : bool) (idx : nat)
    (data : list (list string)) : res (list table_row) :=
  match data with
  | [] => Ok []
  | row :: data' =>
      r <- build_row best_idx highlight_best idx row ;;
      rs <- build_rows best_idx highlight_best (S idx) data' ;;
      Ok (r :: rs)
  end.

Definition comparison_table_section (title description : string)
    (data : list (list string)) (highlight_best : bool) : res table :=
  best_idx <- find_best data highlight_best ;;
  table_rows <- build_rows best_idx highlight_best 0 data ;;
  Ok (mk_table title description table_rows).

End Comparison.

(** A float parser agreeing with Python's [float] on the strings used in
    the examples below. *)
Definition sample_float (s : string) : res pyfloat :=
  if String.eqb s "0.986" then Ok (Fin (986 # 1000))
  else if String.eqb s "0.973" then Ok (Fin (973 # 1000))
  else if String.eqb s "0.5" then Ok (Fin (1 # 2))
  else if String.eqb s "nan" then Ok NaN
  else Raise (Exc "ValueError" ("could not convert string to float: '" ++ s ++ "'")).

(** The [ml_data] table of the modeling page. *)
Definition ml_data : list (list string) :=
  [["Support Vector Regression (SVR)"; "0.986"; "$59.93"; "$43.77"; "GridSearch: C=100, gamma=0.01"];
   ["Random Forest"; "0.986"; "$59.93"; "$43.77"; "500 trees, depth=20, 1620 CV fits"];
   ["XGBoost"; "0.973"; "$82.67"; "$51.11"; "Underperformed - possible overfitting"]].

End Modeling.

(** ** The chapter progress bar ([components/chapter_nav.py],
    [chapter_progress]) *)
Module ChapterNav.

(** [rx.color(name, shade)], or a plain colour name. *)
Inductive color : Type :=
| RxColor (name : string) (shade : nat)
| Named (name : string).

(** [rx.cond(c, a, b)] on a Python boolean. *)
Definition cond {A} (c : bool) (a b : A) : A := if c then a else b.

Record circle_view : Type := mk_circle {
  c_number : string;
  c_label : string;
  c_position : Z;
  c_text_color : color;
  c_background : color;
  c_border : color;          (* colour of the 2px solid border *)
  c_label_weight : string;
  c_label_color : color
}.

Record line_view : Type := mk_line {
  ln_position : Z;
  ln_background : color
}.

Inductive node : Type :=
| NCircle (c : circle_view)
| NLine (l : line_view).

Section Progress.

Variable current : Z.

Definition circle (number label : string) (position : Z) : node :=
  let is_current := Z.eqb position current in
  let is_completed := Z.ltb position current in
  NCircle (mk_circle number label position
    (cond is_current (Named "white") (RxColor "gray" 11))
    (cond is_current (RxColor "amber" 9) (RxColor "gray" 3))
    (cond (is_completed || is_current) (RxColor "amber" 9) (RxColor "gray" 5))
    (cond is_current "bold" "medium")
    (cond is_current (RxColor "amber" 11) (RxColor "gray" 10))).

Definition connector_line (position : Z) : node :=
  let is_completed := Z.ltb position current in
  NLine (mk_line position (cond is_completed (RxColor "amber" 9) (RxColor "gray" 5))).

Definition chapter_progress : list node :=
  [circle "1" "Data Collection" 1;
   connector_line 1;
   circle "2" "EDA" 2;
   connector_line 2;
   circle "3" "Modeling" 3;
   connector_line 3;
   circle "4" "Forecast" 4].

End Progress.

Definition circles (ns : list node) : list circle_view :=
  flat_map (fun n => match n with NCircle c => [c] | NLine _ => [] end) ns.

Definition lines (ns : list node) : list line_view :=
  flat_map (fun n => match n with NLine l => [l] | NCircle _ => [] end) ns.

Definition color_eqb (a b : color) : bool :=
  match a, b with
  | RxColor n i, RxColor m j => String.eqb n m && Nat.eqb i j
  | Named n, Named m => String.eqb n m
  | _, _ => false
  end.

(** The current circle is the one drawn on an amber background. *)
Definition in_current_style (c : circle_view) : bool :=
  color_eqb (c_background c) (RxColor "amber" 9).

Definition amber_border (c : circle_view) : bool :=
  color_eqb (c_border c) (RxColor "amber" 9).

Definition amber_line (l : line_view) : bool :=
  color_eqb (ln_background l) (RxColor "amber" 9).

End ChapterNav.

(** ** The rendered navigation bar ([components/navbar.py], [navbar]) *)
Module NavbarView.
Import ChapterNav.

(** One link of the bar as rendered for the current router path. *)
Record nav_link : Type := mk_nav_link {
  nl_label : string;
  nl_href : string;
  nl_active : bool;
  nl_color : color;
  nl_font_weight : string;
  nl_text_decoration : string
}.

(** A chapter or home link: amber, bold and underlined when active. *)
Definition std_link (label href : string) (active : bool) : nav_link :=
  mk_nav_link label href active
    (cond active (RxColor "amber" 9) (RxColor "gray" 11))
    (cond active "bold" "medium")
    (cond active "underline" "none").

Definition navbar_links (path : Navbar.router_path) : list nav_link :=
  [std_link "Home" "/" (Navbar.is_home_active path);
   std_link "Data Collection" "/data-collection" (Navbar.is_data_collection_active path);
   std_link "EDA" "/eda" (Navbar.is_eda_active path);
   std_link "Modeling" "/modeling" (Navbar.is_modeling_active path);
   mk_nav_link "Forecast" "/forecast" (Navbar.is_forecast_active path)
     (cond (Navbar.is_forecast_active path) (RxColor "amber" 11) (RxColor "amber" 9))
     "bold"
     (cond (Navbar.is_forecast_active path) "underline" "none")].

Definition navbar_hrefs : list string := map nl_href (navbar_links None).

End NavbarView.

(** ** The pages as routed: layout, progress bar and links ([pages/*.py],
    [components/layout.py]) *)
Module Site.

(** What a page renders of the site's structure: whether it is wrapped in
    [page_layout] (which puts the navigation bar on top), the [current]
    argument of its [chapter_progress], and the [href] of each of its
    own links, in order. *)
Record page_view : Type := mk_page_view {
  pg_layout : bool;
  pg_progress : option Z;
  pg_links : list string
}.

Definition render_page (p : App.page) : page_view :=
  match p with
  | App.home_page =>
      (* five [nav_card]s, each an [rx.link(..., href=route)] *)
      mk_page_view true None
        ["/data-collection"; "/eda"; "/modeling"; "/forecast";
         "https://github.com/HuyPham171-hub/gold-price-prediction"]
  | App.data_collection_page =>
      (* four [data_source_card]s, then [next_chapter_navigation(..., "/eda")] *)
      mk_page_view true (Some 1%Z)
        ["https://finance.yahoo.com/"; "https://fred.stlouisfed.org/";
         "https://www.gold.org/"; "https://www.matteoiacoviello.com/gpr.htm";
         "/eda"]
  | App.eda_page => mk_page_view true (Some 2%Z) ["/modeling"]
  | App.modeling_page => mk_page_view true (Some 3%Z) ["/forecast"]
  | App.forecast_page =>
      (* [rx.container(...)] with a "Back to Home" link, no [page_layout] *)
      mk_page_view false None ["/"]
  end.

(** Every link reachable on a page: the bar's links when it has the bar,
    then its own. *)
Definition all_links (p : App.page) : list string :=
  (if pg_layout (render_page p) then NavbarView.navbar_hrefs else []) ++
  pg_links (render_page p).

(** A link inside the application. *)
Definition is_internal (href : string) : bool := prefix "/" href.

End Site.

(** ** Feature items of the data collection page ([pages/data_collection.py],
    [feature_item_with_dialog]) *)
Module DataCollection.

Record feature_view : Type := mk_feature_view {
  fv_trigger : string;
  fv_title : string;
  fv_description : string;
  fv_ticker_line : option string   (* the "Ticker/ID: ..." line, when shown *)
}.

(** [feature_ticker: str | None]; Python truthiness of the ticker. *)
Definition truthy (t : option string) : bool :=
  match t with
  | None => false
  | Some s => negb (String.eqb s "")
  end.

Definition feature_item_with_dialog (feature_name : string) (feature_ticker : option string)
    (description : string) : feature_view :=
  let trigger_text :=
    match feature_ticker with
    | Some t => if truthy feature_ticker then feature_name ++ " (" ++ t ++ ")" else feature_name
    | None => feature_name
    end in
  mk_feature_view trigger_text feature_name description
    (if truthy feature_ticker then feature_ticker else None).

End DataCollection.

(** * Properties *)

(** ** Strings *)

Lemma prefix_app (b c : string) : prefix b (b ++ c) = true.
Proof.
  induction b as [|x b IH]; simpl.
  - destruct c; reflexivity.
  - destruct (Ascii.ascii_dec x x) as [_|n]; [exact IH | congruence].
Qed.

Lemma append_empty_r (s : string) : s ++ "" = s.
Proof. induction s as [|x s IH]; simpl; [reflexivity | rewrite IH; reflexivity]. Qed.

Lemma contains_prefix (s sub : string) :
  prefix sub s = true -> contains s sub = true.
Proof. intros H. destruct s; unfold contains; fold contains; rewrite H; reflexivity. Qed.

Lemma contains_app_mid (a b c : string) : contains (a ++ b ++ c) b = true.
Proof.
  induction a as [|x a IH]; simpl.
  - apply contains_prefix, prefix_app.
  - rewrite IH, orb_true_r. reflexivity.
Qed.

Create HintDb goldsight.
Global Hint Resolve prefix_app contains_app_mid : goldsight.

(** ** Navigation bar *)

(** C9: [current_route] is the router path when that path is a non-empty
    string, and ["/"] when it is empty or [None]; it is never empty. *)
Theorem current_route_spec :
  (forall p : string, p <> "" -> Navbar.current_route (Some p) = p) /\
  Navbar.current_route (Some "") = "/" /\
  Navbar.current_route None = "/" /\
  (forall path, Navbar.current_route path <> "").
Proof.
  split; [|split; [reflexivity|split; [reflexivity|]]].
  - intros p Hp. simpl. destruct (String.eqb_spec p "") as [E|_]; congruence.
  - intros [p|]; simpl; [|discriminate].
    destruct (String.eqb_spec p "") as [_|Hp]; [discriminate | exact Hp].
Qed.

Ltac decide_routes :=
  repeat match goal with
         | |- context [String.eqb ?r ?c] =>
             is_var r; destruct (String.eqb_spec r c); [subst r|]
         end;
  simpl; repeat split; try lia;
  intros H; try destruct H as [H|H]; try discriminate; try congruence; auto.

Lemma active_flags_route (path : Navbar.router_path) :
  Navbar.active_flags path =
  let r := Navbar.current_route path in
  [String.eqb r "/";
   String.eqb r "/data-collection" || String.eqb r "/data-collection/";
   String.eqb r "/eda" || String.eqb r "/eda/";
   String.eqb r "/modeling" || String.eqb r "/modeling/";
   String.eqb r "/forecast" || String.eqb r "/forecast/"].
Proof. reflexivity. Qed.

(** C4: each link of the bar is highlighted exactly on its route:
    home on ["/"], each chapter on its route with or without a trailing
    slash; at most one of the five predicates holds at a time. *)
Theorem navbar_active_exact (path : Navbar.router_path) :
  (Navbar.is_home_active path = true <-> Navbar.current_route path = "/") /\
  (Navbar.is_data_collection_active path = true <->
     Navbar.current_route path = "/data-collection" \/
     Navbar.current_route path = "/data-collection/") /\
  (Navbar.is_eda_active path = true <->
     Navbar.current_route path = "/eda" \/ Navbar.current_route path = "/eda/") /\
  (Navbar.is_modeling_active path = true <->
     Navbar.current_route path = "/modeling" \/
     Navbar.current_route path = "/modeling/") /\
  (Navbar.is_forecast_active path = true <->
     Navbar.current_route path = "/forecast" \/
     Navbar.current_route path = "/forecast/") /\
  (Navbar.count_true (Navbar.active_flags path) <= 1)%nat.
Proof.
  unfold Navbar.count_true. rewrite active_flags_route.
  unfold Navbar.is_home_active, Navbar.is_data_collection_active,
    Navbar.is_eda_active, Navbar.is_modeling_active, Navbar.is_forecast_active.
  cbv zeta.
  generalize (Navbar.current_route path) as r. intros r.
  decide_routes.
Qed.

(** ** Routes *)

(** C5: the application registers exactly the five routes ["/"],
    ["/data-collection"], ["/eda"], ["/modeling"] and ["/forecast"], bound to
    the home, data collection, EDA, modeling and forecast pages. *)
Theorem app_routes :
  App.routes App.goldsight_app =
  [("/", App.home_page);
   ("/data-collection", App.data_collection_page);
   ("/eda", App.eda_page);
   ("/modeling", App.modeling_page);
   ("/forecast", App.forecast_page)].
Proof. reflexivity. Qed.

(** ** Cached chart loading *)

Section LoaderProofs.

Variable json_load : string -> res ChartLoader.json.
Variable go_Figure : ChartLoader.json -> res ChartLoader.figure.

(** C1: when the cache file [goldsight/data/cache/<name>.json] does not
    exist, [load_plotly_chart] returns (does not raise) the placeholder
    figure, whose title and single annotation both name the chart. *)
Theorem load_missing_placeholder (fs : ChartLoader.filesystem) (chart_name : string) :
  fs (ChartLoader.cache_path chart_name) = ChartLoader.Missing ->
  ChartLoader.load_plotly_chart json_load go_Figure fs chart_name =
    Ok (ChartLoader.not_found_figure chart_name) /\
  exists title a,
    ChartLoader.lay_title (ChartLoader.fig_layout (ChartLoader.not_found_figure chart_name))
      = Some title /\
    contains title chart_name = true /\
    ChartLoader.lay_annotations
      (ChartLoader.fig_layout (ChartLoader.not_found_figure chart_name)) = [a] /\
    contains (ChartLoader.ann_text a) chart_name = true.
Proof.
  intros Hmiss.
  unfold ChartLoader.load_plotly_chart, ChartLoader.load_body, ChartLoader.path_exists.
  rewrite Hmiss. split; [reflexivity|].
  exists ("Chart '" ++ chart_name ++ "' not found").
  exists (ChartLoader.mk_annotation
            ("Run explore.ipynb to generate " ++ chart_name ++ ".json")
            false (1#2) (1#2) 16 "gray").
  split; [reflexivity|]. split; [auto with goldsight|].
  split; [reflexivity|]. apply contains_app_mid.
Qed.

(** C3: [load_plotly_chart] never raises: whatever the file system and
    the behaviour of [json.load] and [go.Figure], it returns a figure; when
    the body of its [try] raises, that figure is the error figure, whose
    title names the chart and whose annotation carries the exception
    message. *)
Theorem load_plotly_chart_total (fs : ChartLoader.filesystem) (chart_name : string) :
  exists fig,
    ChartLoader.load_plotly_chart json_load go_Figure fs chart_name = Ok fig /\
    match ChartLoader.load_body json_load go_Figure fs chart_name with
    | Ok f => fig = f
    | Raise e =>
        fig = ChartLoader.error_figure chart_name e /\
        exists title a,
          ChartLoader.lay_title (ChartLoader.fig_layout fig) = Some title /\
          contains title chart_name = true /\
          ChartLoader.lay_annotations (ChartLoader.fig_layout fig) = [a] /\
          contains (ChartLoader.ann_text a) (exc_str e) = true
    end.
Proof.
  unfold ChartLoader.load_plotly_chart, try_except.
  destruct (ChartLoader.load_body json_load go_Figure fs chart_name) as [f|e].
  - exists f. split; reflexivity.
  - exists (ChartLoader.error_figure chart_name e). split; [reflexivity|].
    split; [reflexivity|].
    exists ("Error loading '" ++ chart_name ++ "'").
    exists (ChartLoader.mk_annotation ("Error: " ++ exc_str e) false (1#2) (1#2) 14 "red").
    split; [reflexivity|]. split; [auto with goldsight|].
    split; [reflexivity|]. unfold ChartLoader.ann_text.
    rewrite <- (append_empty_r (exc_str e)) at 1.
    apply contains_app_mid.
Qed.

End LoaderProofs.

(** A file system in which only the cache of [correlation_matrix] exists. *)
Definition sample_fs (p : string) : ChartLoader.file_state :=
  if String.eqb p (ChartLoader.cache_path "correlation_matrix")
  then ChartLoader.Present "{}"
  else ChartLoader.Missing.

Lemma load_missing_placeholder_witness :
  sample_fs (ChartLoader.cache_path "gold_currency_heatmap") = ChartLoader.Missing /\
  ChartLoader.load_plotly_chart (fun _ => Ok ChartLoader.JNull) (fun _ => Ok ChartLoader.empty_figure)
    sample_fs "gold_currency_heatmap" =
    Ok (ChartLoader.not_found_figure "gold_currency_heatmap").
Proof.
  assert (H : sample_fs (ChartLoader.cache_path "gold_currency_heatmap") = ChartLoader.Missing)
    by reflexivity.
  split; [exact H|].
  exact (proj1 (load_missing_placeholder (fun _ => Ok ChartLoader.JNull)
                  (fun _ => Ok ChartLoader.empty_figure) sample_fs _ H)).
Defined.

(** ** Chapter progress bar *)

Ltac members :=
  repeat match goal with
         | H : In _ (_ :: _) |- _ => destruct H as [<-|H]
         | H : In _ [] |- _ => destruct H
         | H : _ \/ _ |- _ => destruct H
         | H : False |- _ => destruct H
         | H : _ = ?x |- _ => is_var x; subst x
         end.

Ltac settle_views :=
  simpl in *; members; simpl in *;
  intuition (try first [reflexivity | discriminate | lia]).

(** C10: for a current chapter in 1..4, exactly one circle (the one at
    position [current]) is drawn in the current style, a circle has the
    amber (completed or current) border iff its position is at most
    [current], connector [p] is amber iff [p < current], and both amber sets
    are closed downwards. *)
Theorem chapter_progress_prefix (current : Z) :
  (1 <= current <= 4)%Z ->
  map ChapterNav.c_position (ChapterNav.circles (ChapterNav.chapter_progress current))
    = [1; 2; 3; 4]%Z /\
  map ChapterNav.ln_position (ChapterNav.lines (ChapterNav.chapter_progress current))
    = [1; 2; 3]%Z /\
  length (filter ChapterNav.in_current_style
            (ChapterNav.circles (ChapterNav.chapter_progress current))) = 1%nat /\
  (forall c, In c (ChapterNav.circles (ChapterNav.chapter_progress current)) ->
     ChapterNav.in_current_style c = true <-> ChapterNav.c_position c = current) /\
  (forall c, In c (ChapterNav.circles (ChapterNav.chapter_progress current)) ->
     ChapterNav.amber_border c = true <-> (ChapterNav.c_position c <= current)%Z) /\
  (forall l, In l (ChapterNav.lines (ChapterNav.chapter_progress current)) ->
     ChapterNav.amber_line l = true <-> (ChapterNav.ln_position l < current)%Z) /\
  (forall c d,
     In c (ChapterNav.circles (ChapterNav.chapter_progress current)) ->
     In d (ChapterNav.circles (ChapterNav.chapter_progress current)) ->
     (ChapterNav.c_position d <= ChapterNav.c_position c)%Z ->
     ChapterNav.amber_border c = true -> ChapterNav.amber_border d = true) /\
  (forall l m,
     In l (ChapterNav.lines (ChapterNav.chapter_progress current)) ->
     In m (ChapterNav.lines (ChapterNav.chapter_progress current)) ->
     (ChapterNav.ln_position m <= ChapterNav.ln_position l)%Z ->
     ChapterNav.amber_line l = true -> ChapterNav.amber_line m = true).
Proof.
  intros Hc.
  assert (current = 1 \/ current = 2 \/ current = 3 \/ current = 4)%Z as Hcases by lia.
  destruct Hcases as [ -> | [ -> | [ -> | -> ] ] ];
    (split; [reflexivity|]); (split; [reflexivity|]); (split; [reflexivity|]);
    repeat split; intros; settle_views.
Qed.

Lemma chapter_progress_prefix_witness :
  (1 <= 2 <= 4)%Z /\
  length (filter ChapterNav.in_current_style
            (ChapterNav.circles (ChapterNav.chapter_progress 2))) = 1%nat.
Proof.
  assert (H : (1 <= 2 <= 4)%Z) by lia.
  split; [exact H|].
  exact (proj1 (proj2 (proj2 (chapter_progress_prefix 2 H)))).
Defined.

(** ** Dataset overview *)

Lemma Forall_firstn_of {A} (P : A -> Prop) (n : nat) (l : list A) :
  Forall P l -> Forall P (firstn n l).
Proof.
  revert n. induction l as [|x l IH]; intros [|n] H; simpl; auto.
  inversion H; subst. constructor; auto.
Qed.

Section OverviewProofs.

Variable fmt2 : Q -> string.
Variable float_str : Q -> string.

Lemma format_row_length (cols : list (string * Dataset.dtype)) (row : list Dataset.cell) :
  length row = length cols -> length (Dataset.format_row fmt2 cols row) = length cols.
Proof.
  intros H. unfold Dataset.format_row. rewrite length_map, length_combine. lia.
Qed.

(** C2 (as amended): when [pd.read_csv] raises, [dataset_overview] still
    returns; the preview box is replaced by an empty box, so no error text is
    displayed, and the two data-dependent cards fall back to 17 and 233. *)
Theorem dataset_overview_load_error (e : exc) :
  Dataset.dataset_overview fmt2 float_str (Raise e) =
  Ok (Dataset.mk_overview "17" "233" None).
Proof. reflexivity. Qed.

(** C6: when the CSV loads, the preview shows [df.head(10)] (the first
    10 rows, or all of them when there are fewer) in file order, each row
    rendered cell by cell, one header cell per column in column order, and
    the caption and cards report the row and column counts of the whole
    CSV. *)
Theorem dataset_preview_head (df : Dataset.dataframe) :
  exists ov p,
    Dataset.dataset_overview fmt2 float_str (Ok df) = Ok ov /\
    Dataset.ov_preview ov = Some p /\
    Dataset.pv_header p = map fst (Dataset.df_columns df) /\
    Dataset.pv_body p =
      map (fun row => map (Dataset.render_cell float_str)
                        (Dataset.format_row fmt2 (Dataset.df_columns df) row))
          (firstn 10 (Dataset.df_rows df)) /\
    length (Dataset.pv_body p) = Nat.min 10 (length (Dataset.df_rows df)) /\
    (Forall (fun row => length row = length (Dataset.df_columns df)) (Dataset.df_rows df) ->
     Forall (fun cells => length cells = length (Dataset.df_columns df)) (Dataset.pv_body p)) /\
    Dataset.pv_caption p =
      "Showing 10 of " ++ str_nat (length (Dataset.df_rows df)) ++ " rows • " ++
      str_nat (length (Dataset.df_columns df)) ++ " columns" /\
    Dataset.ov_features ov = str_nat (length (Dataset.df_columns df)) /\
    Dataset.ov_observations ov = str_nat (length (Dataset.df_rows df)).
Proof.
  do 2 eexists. split; [reflexivity|]. split; [reflexivity|].
  cbn [Dataset.pv_body Dataset.pv_header Dataset.pv_caption Dataset.ld_rows
       Dataset.ld_columns Dataset.ld_total_rows Dataset.ld_total_cols Dataset.head
       Dataset.df_rows Dataset.df_columns Dataset.ov_features Dataset.ov_observations
       Dataset.ld_data_loaded].
  split; [reflexivity|]. split; [rewrite map_map; reflexivity|].
  split; [rewrite !length_map, length_firstn; reflexivity|].
  split; [|repeat split].
  intros Hrows. rewrite map_map.
  apply Forall_map. apply Forall_firstn_of.
  eapply Forall_impl; [|exact Hrows].
  intros row Hrow. rewrite length_map. apply format_row_length. exact Hrow.
Qed.

End OverviewProofs.

(** C2: with the CSV missing, none of the texts the section displays
    mentions the exception: the error row is built but never shown. *)
Lemma dataset_overview_error_not_shown :
  exists ov,
    Dataset.dataset_overview (fun _ => "0.00") (fun _ => "0.0")
      (Raise (Exc "FileNotFoundError"
                "[Errno 2] No such file or directory: 'data/combined_data.csv'")) = Ok ov /\
    Dataset.ov_preview ov = None /\
    existsb (fun t => contains t "No such file or directory")
      (Dataset.overview_texts ov) = false.
Proof.
  eexists. split; [reflexivity|]. split; [reflexivity|]. vm_compute. reflexivity.
Qed.

(** ** Model comparison table *)

Module ModelingFacts.
Import Modeling.

Lemma py_gt_irrefl (a : pyfloat) : py_gt a a = false.
Proof.
  destruct a; simpl; try reflexivity.
  assert (H : Qle_bool q q = true) by (apply Qle_bool_iff, Qle_refl).
  rewrite H. reflexivity.
Qed.

Lemma py_gt_Fin (x y : Q) : py_gt (Fin x) (Fin y) = true <-> y < x.
Proof.
  simpl. destruct (Qle_bool x y) eqn:E; simpl.
  - apply Qle_bool_iff in E. split; [discriminate|]. intros H.
    exfalso. apply (Qlt_not_le _ _ H E).
  - split; [|reflexivity]. intros _. apply Qnot_le_lt. intros H.
    apply Qle_bool_iff in H. congruence.
Qed.

Lemma py_gt_trans (a b c : pyfloat) :
  py_gt a b = true -> py_gt b c = true -> py_gt a c = true.
Proof.
  destruct a as [| |x|], b as [| |y|], c as [| |z|]; simpl; try discriminate; auto.
  intros H1 H2.
  apply (proj2 (py_gt_Fin x z)).
  apply (proj1 (py_gt_Fin x y)) in H1. apply (proj1 (py_gt_Fin y z)) in H2.
  apply (Qlt_trans _ _ _ H2 H1).
Qed.

Lemma py_eq_refl (a : pyfloat) : a <> NaN -> py_eq a a = true.
Proof.
  destruct a; simpl; intros H; try reflexivity.
  - congruence.
  - apply Qeq_bool_refl.
Qed.

(** [max] only moves to greater values. *)
Lemma max_from_ge (l : list pyfloat) (cur : pyfloat) :
  max_from cur l = cur \/ py_gt (max_from cur l) cur = true.
Proof.
  revert cur. induction l as [|x l IH]; intros cur; simpl; [left; reflexivity|].
  destruct (py_gt x cur) eqn:Ex; [|exact (IH cur)].
  right. destruct (IH x) as [-> | H]; [exact Ex | exact (py_gt_trans _ _ _ H Ex)].
Qed.

(** [max] returns one of its arguments, and none of them is greater. *)
Lemma max_from_spec (l : list pyfloat) (cur : pyfloat) :
  In (max_from cur l) (cur :: l) /\
  (forall w, In w (cur :: l) -> py_gt w (max_from cur l) = false).
Proof.
  revert cur. induction l as [|x l IH]; intros cur; simpl.
  - split; [left; reflexivity|].
    intros w [<-|[]]. apply py_gt_irrefl.
  - destruct (py_gt x cur) eqn:Ex.
    + destruct (IH x) as [Hin Hmax]. split.
      * simpl in Hin. destruct Hin as [H|H]; [right; left; exact H | right; right; exact H].
      * intros w [<-|Hw].
        -- destruct (py_gt cur (max_from x l)) eqn:Ew; [|reflexivity].
           rewrite <- (py_gt_irrefl cur).
           destruct (max_from_ge l x) as [E | E].
           ++ rewrite E in Ew. symmetry. exact (py_gt_trans _ _ _ Ew Ex).
           ++ symmetry. exact (py_gt_trans _ _ _ (py_gt_trans _ _ _ Ew E) Ex).
        -- exact (Hmax w Hw).
    + destruct (IH cur) as [Hin Hmax]. split.
      * simpl in Hin. destruct Hin as [H|H]; [left; exact H | right; right; exact H].
      * intros w [<-|[<-|Hw]].
        -- exact (Hmax cur (or_introl eq_refl)).
        -- destruct (py_gt x (max_from cur l)) eqn:Ew; [|reflexivity].
           destruct (max_from_ge l cur) as [E | E].
           ++ rewrite E in Ew. congruence.
           ++ rewrite (py_gt_trans _ _ _ Ew E) in Ex. discriminate.
        -- exact (Hmax w (or_intror Hw)).
Qed.

Lemma getitem_nth (row : list string) (i : nat) :
  (i < length row)%nat -> getitem row i = Ok (nth i row "").
Proof. intros H. unfold getitem. rewrite (nth_error_nth' row "" H). reflexivity. Qed.

Section Rows.

Variable r2_value : string -> res pyfloat.

Definition well_formed (data : list (list string)) : Prop :=
  Forall (fun row => (5 <= length row)%nat) data.

Definition parses_to (data : list (list string)) (vals : list pyfloat) : Prop :=
  Forall2 (fun row v => r2_value (nth 1 row "") = Ok v) data vals.

Lemma r2_of_ok (row : list string) (v : pyfloat) :
  (5 <= length row)%nat -> r2_value (nth 1 row "") = Ok v -> r2_of r2_value row = Ok v.
Proof.
  intros Hlen Hv. unfold r2_of. rewrite getitem_nth by lia. exact Hv.
Qed.

Lemma mapM_r2_of (data : list (list string)) (vals : list pyfloat) :
  well_formed data -> parses_to data vals -> mapM (r2_of r2_value) data = Ok vals.
Proof.
  intros Hwf Hp. induction Hp as [|row v data vals Hv Hp IH]; [reflexivity|].
  inversion Hwf as [|? ? Hrow Hwf']; subst.
  simpl. rewrite (r2_of_ok row v Hrow Hv). simpl. rewrite (IH Hwf'). reflexivity.
Qed.

Lemma next_index_spec (m : pyfloat) (data : list (list string)) (vals : list pyfloat)
    (i0 : nat) :
  well_formed data -> parses_to data vals ->
  (exists k v, nth_error vals k = Some v /\ py_eq v m = true) ->
  exists k,
    next_index r2_value m i0 data = Ok (i0 + k)%nat /\
    (exists v, nth_error vals k = Some v /\ py_eq v m = true) /\
    (forall j v, (j < k)%nat -> nth_error vals j = Some v -> py_eq v m = false).
Proof.
  intros Hwf Hp. revert i0.
  induction Hp as [|row v data vals Hv Hp IH]; intros i0 [k [w [Hk Hw]]].
  - destruct k; discriminate.
  - inversion Hwf as [|? ? Hrow Hwf']; subst.
    simpl. rewrite (r2_of_ok row v Hrow Hv). simpl.
    destruct (py_eq v m) eqn:Ev.
    + exists 0%nat. split; [f_equal; lia|]. split.
      * exists v. split; [reflexivity | exact Ev].
      * intros j u Hj. lia.
    + destruct k as [|k]; [simpl in Hk; congruence|].
      destruct (IH Hwf' (S i0) (ex_intro _ k (ex_intro _ w (conj Hk Hw))))
        as [k' [Hnext [Hfound Hbefore]]].
      exists (S k'). split; [rewrite Hnext; f_equal; lia|]. split; [exact Hfound|].
      intros [|j] u Hj Hu; simpl in Hu.
      * congruence.
      * apply (Hbefore j u); [lia | exact Hu].
Qed.

Lemma build_rows_spec (best : nat) (hb : bool) (data : list (list string))
    (vals : list pyfloat) (idx : nat) :
  well_formed data -> parses_to data vals ->
  exists rows,
    build_rows r2_value best hb idx data = Ok rows /\
    length rows = length data /\
    forall k r, nth_error rows k = Some r ->
      tr_best r = Nat.eqb (idx + k) best && hb /\
      exists v, nth_error vals k = Some v /\
                tr_badge r = (if py_gt v threshold then Green else Gray).
Proof.
  intros Hwf Hp. revert idx.
  induction Hp as [|row v data vals Hv Hp IH]; intros idx.
  - exists []. split; [reflexivity|]. split; [reflexivity|].
    intros [|k] r Hr; discriminate.
  - inversion Hwf as [|? ? Hrow Hwf']; subst.
    destruct (IH Hwf' (S idx)) as [rows [Hb [Hlen Hrows]]].
    cbn [build_rows]. unfold build_row.
    rewrite !getitem_nth by lia. cbn [bind]. rewrite Hv. cbn [bind]. rewrite Hb. cbn [bind].
    eexists. split; [reflexivity|]. split; [simpl; rewrite Hlen; reflexivity|].
    intros [|k] r Hr; simpl in Hr.
    + injection Hr as <-. simpl. split; [f_equal; f_equal; lia|].
      exists v. split; reflexivity.
    + destruct (Hrows k r Hr) as [Hbest Hbadge]. split; [|exact Hbadge].
      rewrite Hbest. f_equal. f_equal. lia.
Qed.

End Rows.

End ModelingFacts.

Import Modeling ModelingFacts.

(** C8 (as amended): for a non-empty table whose rows have at least five
    entries and whose R² entries all parse to floats other than NaN, with
    [highlight_best=True] the highlighted row is exactly the earliest one
    whose R² equals the maximum R²; with [highlight_best=False] no row is
    highlighted; and in every row the badge is green iff the R² is greater
    than 0.9. *)
Theorem comparison_best_row (r2_value : string -> res pyfloat)
    (title description : string) (data : list (list string)) (vals : list pyfloat) :
  data <> [] ->
  well_formed data ->
  parses_to r2_value data vals ->
  Forall (fun v => v <> NaN) vals ->
  (exists tbl i m,
     comparison_table_section r2_value title description data true = Ok tbl /\
     length (tbl_rows tbl) = length data /\
     In m vals /\ (forall w, In w vals -> py_gt w m = false) /\
     (exists v, nth_error vals i = Some v /\ py_eq v m = true) /\
     (forall j v, (j < i)%nat -> nth_error vals j = Some v -> py_eq v m = false) /\
     (forall k r, nth_error (tbl_rows tbl) k = Some r -> (tr_best r = true <-> k = i)) /\
     (forall k r v, nth_error (tbl_rows tbl) k = Some r -> nth_error vals k = Some v ->
        (tr_badge r = Green <-> py_gt v threshold = true))) /\
  (exists tbl,
     comparison_table_section r2_value title description data false = Ok tbl /\
     length (tbl_rows tbl) = length data /\
     (forall r, In r (tbl_rows tbl) -> tr_best r = false) /\
     (forall k r v, nth_error (tbl_rows tbl) k = Some r -> nth_error vals k = Some v ->
        (tr_badge r = Green <-> py_gt v threshold = true))).
Proof.
  intros Hne Hwf Hp Hnan.
  assert (Hbadge : forall best hb rows,
            (forall k r, nth_error rows k = Some r ->
               tr_best r = Nat.eqb (0 + k) best && hb /\
               exists v, nth_error vals k = Some v /\
                         tr_badge r = (if py_gt v threshold then Green else Gray)) ->
            forall k r v, nth_error rows k = Some r -> nth_error vals k = Some v ->
              (tr_badge r = Green <-> py_gt v threshold = true)).
  { intros best hb rows Hrows k r v Hr Hv.
    destruct (Hrows k r Hr) as [_ [v' [Hv' Hb]]].
    rewrite Hv in Hv'. injection Hv' as <-. rewrite Hb.
    destruct (py_gt v threshold); split; congruence. }
  split.
  - destruct vals as [|v0 vals'].
    { inversion Hp; subst. congruence. }
    set (m := max_from v0 vals').
    destruct (max_from_spec vals' v0) as [Hin Hmax]. fold m in Hin, Hmax.
    assert (Hfind : exists k v, nth_error (v0 :: vals') k = Some v /\ py_eq v m = true).
    { destruct (In_nth_error _ _ Hin) as [k Hk]. exists k, m. split; [exact Hk|].
      apply py_eq_refl. rewrite Forall_forall in Hnan. exact (Hnan m Hin). }
    destruct (next_index_spec r2_value m data (v0 :: vals') 0 Hwf Hp Hfind)
      as [i [Hnext [Hfound Hbefore]]].
    destruct (build_rows_spec r2_value i true data (v0 :: vals') 0 Hwf Hp)
      as [rows [Hb [Hlen Hrows]]].
    exists (mk_table title description rows), i, m.
    split.
    { unfold comparison_table_section, find_best.
      destruct data as [|row data']; [congruence|].
      cbn [andb length Nat.ltb Nat.leb].
      rewrite (mapM_r2_of r2_value _ _ Hwf Hp). cbn [bind py_max].
      fold m. rewrite Hnext. cbn [bind]. rewrite Nat.add_0_l, Hb. reflexivity. }
    split; [exact Hlen|]. split; [exact Hin|]. split; [exact Hmax|].
    split; [exact Hfound|]. split; [exact Hbefore|]. split.
    + intros k r Hr. cbn [tbl_rows] in Hr. destruct (Hrows k r Hr) as [Hbest _].
      rewrite Hbest, andb_true_r, Nat.add_0_l. apply Nat.eqb_eq.
    + exact (Hbadge i true rows Hrows).
  - destruct (build_rows_spec r2_value 0 false data vals 0 Hwf Hp)
      as [rows [Hb [Hlen Hrows]]].
    exists (mk_table title description rows).
    split.
    { unfold comparison_table_section, find_best. cbn [andb bind]. rewrite Hb. reflexivity. }
    split; [exact Hlen|]. split.
    + intros r Hr. cbn [tbl_rows] in Hr. destruct (In_nth_error _ _ Hr) as [k Hk].
      destruct (Hrows k r Hk) as [Hbest _]. rewrite Hbest. apply andb_false_r.
    + exact (Hbadge 0%nat false rows Hrows).
Qed.

Lemma comparison_best_row_witness :
  ml_data <> [] /\
  exists tbl i m,
    comparison_table_section sample_float "t" "d" ml_data true = Ok tbl /\
    length (tbl_rows tbl) = length ml_data /\
    In m [Fin (986 # 1000); Fin (986 # 1000); Fin (973 # 1000)] /\
    (exists v, nth_error [Fin (986 # 1000); Fin (986 # 1000); Fin (973 # 1000)] i = Some v /\
               py_eq v m = true).
Proof.
  assert (Hne : ml_data <> []) by discriminate.
  assert (Hwf : well_formed ml_data) by (repeat constructor).
  assert (Hp : parses_to sample_float ml_data
                 [Fin (986 # 1000); Fin (986 # 1000); Fin (973 # 1000)])
    by (repeat constructor).
  assert (Hnan : Forall (fun v => v <> NaN)
                   [Fin (986 # 1000); Fin (986 # 1000); Fin (973 # 1000)])
    by (repeat constructor; discriminate).
  split; [exact Hne|].
  destruct (proj1 (comparison_best_row sample_float "t" "d" ml_data _ Hne Hwf Hp Hnan))
    as [tbl [i [m [H1 [H2 [H3 [_ [H5 _]]]]]]]].
  exists tbl, i, m. split; [exact H1|]. split; [exact H2|]. split; [exact H3|]. exact H5.
Defined.

(** C8: a first row whose R² parses to NaN makes [max] return NaN, which
    equals no row, so [next] raises [StopIteration] and no table is built. *)
Lemma comparison_nan_first_raises :
  well_formed [["ARIMA"; "nan"; "$0"; "$0"; "-"]] /\
  sample_float "nan" = Ok NaN /\
  comparison_table_section sample_float "t" "d" [["ARIMA"; "nan"; "$0"; "$0"; "-"]] true
    = Raise (Exc "StopIteration" "").
Proof.
  split; [repeat constructor|]. split; reflexivity.
Qed.

(** ** Conditional rendering outside the navigation bar and chart loader *)

Lemma getitem_ok_nth (row : list string) (i : nat) (s : string) :
  getitem row i = Ok s -> nth i row "" = s.
Proof.
  unfold getitem. destruct (nth_error row i) eqn:E; intros H; [|discriminate].
  injection H as <-. apply nth_error_nth. exact E.
Qed.

Ltac settle_position :=
  unfold ChapterNav.cond;
  repeat match goal with
         | |- context [Z.eqb ?a ?b] => destruct (Z.eqb_spec a b)
         | |- context [Z.ltb ?a ?b] => destruct (Z.ltb_spec a b)
         | |- context [Z.leb ?a ?b] => destruct (Z.leb_spec a b)
         end;
  simpl; first [reflexivity | lia].

Lemma build_row_ok_inv (r2_value : string -> res pyfloat) (best : nat) (hb : bool)
    (idx : nat) (row : list string) (r : table_row) :
  build_row r2_value best hb idx row = Ok r ->
  exists v, r2_of r2_value row = Ok v /\
    tr_best r = Nat.eqb idx best && hb /\
    tr_badge r = (if py_gt v threshold then Green else Gray).
Proof.
  intros H. unfold build_row in H.
  destruct (getitem row 0) as [name|e] eqn:E0; [|discriminate]. cbn [bind] in H.
  destruct (getitem row 1) as [s1|e] eqn:E1; [|discriminate]. cbn [bind] in H.
  destruct (r2_value s1) as [v|e] eqn:Ev; [|discriminate]. cbn [bind] in H.
  destruct (getitem row 2) as [s2|e]; [|discriminate]. cbn [bind] in H.
  destruct (getitem row 3) as [s3|e]; [|discriminate]. cbn [bind] in H.
  destruct (getitem row 4) as [s4|e]; [|discriminate]. cbn [bind] in H.
  injection H as <-. exists v. split; [|split; reflexivity].
  unfold r2_of. rewrite E1. cbn [bind]. exact Ev.
Qed.

Lemma build_rows_ok_inv (r2_value : string -> res pyfloat) (best : nat) (hb : bool)
    (data : list (list string)) (idx : nat) (rows : list table_row) :
  build_rows r2_value best hb idx data = Ok rows ->
  exists vals,
    mapM (r2_of r2_value) data = Ok vals /\
    length rows = length data /\
    forall k r, nth_error rows k = Some r ->
      exists v, nth_error vals k = Some v /\
        tr_best r = Nat.eqb (idx + k) best && hb /\
        tr_badge r = (if py_gt v threshold then Green else Gray).
Proof.
  revert idx rows. induction data as [|row data IH]; intros idx rows H.
  - cbn in H. injection H as <-. exists []. split; [reflexivity|]. split; [reflexivity|].
    intros [|k] r Hr; discriminate.
  - cbn [build_rows] in H.
    destruct (build_row r2_value best hb idx row) as [r0|e] eqn:E0; [|discriminate].
    cbn [bind] in H.
    destruct (build_rows r2_value best hb (S idx) data) as [rs|e] eqn:Ers; [|discriminate].
    cbn [bind] in H. injection H as <-.
    destruct (build_row_ok_inv r2_value best hb idx row r0 E0) as [v [Hv [Hb0 Hg0]]].
    destruct (IH (S idx) rs Ers) as [vals [Hm [Hlen Hrows]]].
    exists (v :: vals). split; [cbn [mapM]; rewrite Hv; cbn [bind]; rewrite Hm; reflexivity|].
    split; [simpl; rewrite Hlen; reflexivity|].
    intros [|k] r Hr; simpl in Hr.
    + injection Hr as <-. exists v. split; [reflexivity|].
      rewrite Nat.add_0_r. split; [exact Hb0 | exact Hg0].
    + destruct (Hrows k r Hr) as [w [Hw [Hb Hg]]]. exists w. split; [exact Hw|].
      split; [rewrite Hb; f_equal; f_equal; lia | exact Hg].
Qed.

Lemma next_index_ok_inv (r2_value : string -> res pyfloat) (m : pyfloat)
    (data : list (list string)) (vals : list pyfloat) (i0 b : nat) :
  mapM (r2_of r2_value) data = Ok vals ->
  next_index r2_value m i0 data = Ok b ->
  exists k v, b = (i0 + k)%nat /\ nth_error vals k = Some v /\ py_eq v m = true /\
    forall j w, (j < k)%nat -> nth_error vals j = Some w -> py_eq w m = false.
Proof.
  revert vals i0. induction data as [|row data IH]; intros vals i0 Hm Hn.
  - discriminate Hn.
  - cbn [mapM] in Hm. cbn [next_index] in Hn.
    destruct (r2_of r2_value row) as [v|e] eqn:Ev; [|discriminate]. cbn [bind] in Hm, Hn.
    destruct (mapM (r2_of r2_value) data) as [vs|e] eqn:Evs; [|discriminate].
    cbn [bind] in Hm. injection Hm as <-.
    destruct (py_eq v m) eqn:Eq.
    + injection Hn as <-. exists 0%nat, v. split; [lia|]. split; [reflexivity|].
      split; [exact Eq|]. intros j w Hj. lia.
    + destruct (IH vs (S i0) eq_refl Hn) as [k [w [Hb [Hk [Hw Hbefore]]]]].
      exists (S k), w. split; [lia|]. split; [exact Hk|]. split; [exact Hw|].
      intros [|j] u Hj Hu; simpl in Hu.
      * injection Hu as <-. exact Eq.
      * apply (Hbefore j u); [lia | exact Hu].
Qed.

(** C7 (as amended): besides the navigation bar and the chart loader,
    [chapter_progress] styles each circle and connector by comparing its
    position with [current], [comparison_table_section] chooses the
    highlighted row and the badge colour from the parsed R², and
    [dataset_overview] shows its preview only when the CSV loads. *)
Theorem conditional_builders :
  (forall current c,
     In c (ChapterNav.circles (ChapterNav.chapter_progress current)) ->
     ChapterNav.in_current_style c = Z.eqb (ChapterNav.c_position c) current /\
     ChapterNav.amber_border c = Z.leb (ChapterNav.c_position c) current) /\
  (forall current l,
     In l (ChapterNav.lines (ChapterNav.chapter_progress current)) ->
     ChapterNav.amber_line l = Z.ltb (ChapterNav.ln_position l) current) /\
  (forall r2_value title description data hb tbl,
     comparison_table_section r2_value title description data hb = Ok tbl ->
     exists vals,
       mapM (r2_of r2_value) data = Ok vals /\
       length (tbl_rows tbl) = length data /\
       forall k r, nth_error (tbl_rows tbl) k = Some r ->
         exists v, nth_error vals k = Some v /\
           tr_badge r = (if py_gt v threshold then Green else Gray) /\
           (tr_best r = true <->
              hb = true /\
              exists m, py_max vals = Ok m /\ py_eq v m = true /\
                (forall j w, (j < k)%nat -> nth_error vals j = Some w -> py_eq w m = false))) /\
  (forall fmt2 float_str read_csv ov,
     Dataset.dataset_overview fmt2 float_str read_csv = Ok ov ->
     (Dataset.ov_preview ov = None <-> exists e, read_csv = Raise e)).
Proof.
  split; [|split; [|split]].
  - intros current c Hc. cbn -[Z.eqb Z.ltb] in Hc.
    members; cbn -[Z.eqb Z.ltb Z.leb]; split; settle_position.
  - intros current l Hl. cbn -[Z.eqb Z.ltb] in Hl.
    members; cbn -[Z.eqb Z.ltb Z.leb]; settle_position.
  - intros r2_value title description data hb tbl H.
    unfold comparison_table_section in H.
    destruct (find_best r2_value data hb) as [best|e] eqn:Ef; [|discriminate].
    cbn [bind] in H.
    destruct (build_rows r2_value best hb 0 data) as [rows|e] eqn:Eb; [|discriminate].
    cbn [bind] in H. injection H as <-. cbn [tbl_rows].
    destruct (build_rows_ok_inv r2_value best hb data 0 rows Eb) as [vals [Hm [Hlen Hrows]]].
    exists vals. split; [exact Hm|]. split; [exact Hlen|].
    intros k r Hr. destruct (Hrows k r Hr) as [v [Hv [Hb Hg]]].
    exists v. split; [exact Hv|]. split; [exact Hg|].
    rewrite Hb, Nat.add_0_l.
    destruct hb.
    2: { rewrite andb_false_r. split; [discriminate | intros [Hf _]; discriminate]. }
    rewrite andb_true_r.
    destruct data as [|row0 data'].
    { destruct rows as [|r0 rows]; [destruct k; discriminate | discriminate]. }
    unfold find_best in Ef. cbn [andb length Nat.ltb Nat.leb] in Ef.
    rewrite Hm in Ef. cbn [bind] in Ef.
    destruct (py_max vals) as [m|e] eqn:Emax; [|discriminate]. cbn [bind] in Ef.
    destruct (next_index_ok_inv r2_value m _ vals 0 best Hm Ef)
      as [i [w [Hbi [Hw [Hweq Hbefore]]]]].
    simpl in Hbi. subst best. rewrite Nat.eqb_eq. split.
    + intros ->. split; [reflexivity|]. exists m. split; [reflexivity|].
      rewrite Hv in Hw. injection Hw as <-. split; [exact Hweq | exact Hbefore].
    + intros [_ [m' [Hm' [Hvm Hb']]]]. injection Hm' as <-.
      destruct (Nat.lt_trichotomy k i) as [Hlt|[Heq|Hgt]]; [|exact Heq|].
      * rewrite (Hbefore k v Hlt Hv) in Hvm. discriminate.
      * rewrite (Hb' i w Hgt Hw) in Hweq. discriminate.
  - intros fmt2 float_str [df|e] ov H; cbn in H; injection H as <-; simpl; split.
    + discriminate.
    + intros [e He]. discriminate.
    + intros _. exists e. reflexivity.
    + reflexivity.
Qed.

(** C7: [chapter_progress] and [comparison_table_section] branch on their
    inputs: the first circle is drawn in the current style for chapter 1
    only, and a row's badge and highlight depend on its R²: with the
    largest R² in the second row, that row is the highlighted one. *)
Lemma other_builders_branch :
  map ChapterNav.c_background (ChapterNav.circles (ChapterNav.chapter_progress 1)) =
    [ChapterNav.RxColor "amber" 9; ChapterNav.RxColor "gray" 3;
     ChapterNav.RxColor "gray" 3; ChapterNav.RxColor "gray" 3] /\
  map ChapterNav.c_background (ChapterNav.circles (ChapterNav.chapter_progress 2)) =
    [ChapterNav.RxColor "gray" 3; ChapterNav.RxColor "amber" 9;
     ChapterNav.RxColor "gray" 3; ChapterNav.RxColor "gray" 3] /\
  exists tbl,
    comparison_table_section sample_float "t" "d"
      [["Baseline"; "0.5"; "$120.00"; "$90.00"; "-"];
       ["SVR"; "0.986"; "$59.93"; "$43.77"; "-"];
       ["XGBoost"; "0.973"; "$82.67"; "$51.11"; "-"]] true = Ok tbl /\
    map tr_badge (tbl_rows tbl) = [Gray; Green; Green] /\
    map tr_best (tbl_rows tbl) = [false; true; false].
Proof.
  split; [reflexivity|]. split; [reflexivity|].
  eexists. split; [reflexivity|]. split; reflexivity.
Qed.

(** * Further properties of the application *)

(** ** Site structure: pages, links and the navigation bar *)

Ltac in_list :=
  simpl; repeat first [left; reflexivity | right].

(** Every link inside the application (an [href] starting with ["/"]) that
    a registered page shows, in its navigation bar or in its content,
    targets a registered route. *)
Theorem internal_links_resolve (e : App.page_entry) (href : string) :
  In e App.goldsight_app ->
  In href (Site.all_links (App.entry_page e)) ->
  Site.is_internal href = true ->
  In href (map fst (App.routes App.goldsight_app)).
Proof.
  intros He Hh Hi. simpl in He. members; simpl in Hh; members;
    first [discriminate Hi | in_list].
Qed.

Lemma internal_links_resolve_witness :
  In "/modeling" (map fst (App.routes App.goldsight_app)).
Proof.
  apply (internal_links_resolve (App.mk_entry "/eda" App.eda_page "Exploratory Data Analysis")).
  - in_list.
  - in_list.
  - reflexivity.
Defined.

(** A page that shows the chapter progress bar with [current = k] is the
    page registered at the [k]-th chapter link of the navigation bar, the
    bar highlights that link on it, and the page links to the next link's
    route. *)
Theorem chapter_pages_chain (e : App.page_entry) (k : Z) :
  In e App.goldsight_app ->
  Site.pg_progress (Site.render_page (App.entry_page e)) = Some k ->
  nth_error NavbarView.navbar_hrefs (Z.to_nat k) = Some (App.entry_route e) /\
  nth_error (Navbar.active_flags (Some (App.entry_route e))) (Z.to_nat k) = Some true /\
  exists next,
    nth_error NavbarView.navbar_hrefs (S (Z.to_nat k)) = Some next /\
    In next (Site.pg_links (Site.render_page (App.entry_page e))).
Proof.
  intros He Hk. simpl in He. members; simpl in Hk; try discriminate;
    injection Hk as <-; split; try reflexivity; split; try reflexivity;
    eexists; (split; [reflexivity | in_list]).
Qed.

Lemma chapter_pages_chain_witness :
  exists next,
    nth_error NavbarView.navbar_hrefs 3 = Some next /\
    In next (Site.pg_links (Site.render_page App.eda_page)).
Proof.
  exact (proj2 (proj2 (chapter_pages_chain
    (App.mk_entry "/eda" App.eda_page "Exploratory Data Analysis") 2%Z
    ltac:(in_list) eq_refl))).
Defined.

(** The Forecast chapter is never shown as the current one: the
    [/forecast] page is not wrapped in [page_layout], so it has no
    navigation bar; on every registered page that has the bar, the
    Forecast link is inactive; and no page draws the progress bar with
    [current = 4]. *)
Theorem forecast_never_highlighted :
  Site.pg_layout (Site.render_page App.forecast_page) = false /\
  (forall e, In e App.goldsight_app ->
     Site.pg_layout (Site.render_page (App.entry_page e)) = true ->
     Navbar.is_forecast_active (Some (App.entry_route e)) = false) /\
  (forall e, In e App.goldsight_app ->
     Site.pg_progress (Site.render_page (App.entry_page e)) <> Some 4%Z).
Proof.
  split; [reflexivity|]. split.
  - intros e He Hl. simpl in He. members; first [reflexivity | discriminate Hl].
  - intros e He. simpl in He. members; simpl; discriminate.
Qed.

(** Following a link of the navigation bar highlights that link and no
    other; for a chapter link the same holds with a trailing slash. *)
Theorem navbar_link_targets (i : nat) (href : string) :
  nth_error NavbarView.navbar_hrefs i = Some href ->
  map NavbarView.nl_active (NavbarView.navbar_links (Some href)) =
    map (Nat.eqb i) (seq 0 5) /\
  ((1 <= i)%nat ->
   map NavbarView.nl_active (NavbarView.navbar_links (Some (href ++ "/"))) =
     map (Nat.eqb i) (seq 0 5)).
Proof.
  intros H.
  destruct i as [|[|[|[|[|i]]]]]; simpl in H; try (destruct i; discriminate);
    injection H as <-; split; try reflexivity; intros Hi; first [reflexivity | lia].
Qed.

Lemma navbar_link_targets_witness :
  nth_error NavbarView.navbar_hrefs 2 = Some "/eda" /\
  map NavbarView.nl_active (NavbarView.navbar_links (Some "/eda")) =
    [false; false; true; false; false].
Proof.
  assert (H : nth_error NavbarView.navbar_hrefs 2 = Some "/eda") by reflexivity.
  split; [exact H|]. exact (proj1 (navbar_link_targets 2 "/eda" H)).
Defined.

Lemma active_flags_at_most_one (path : Navbar.router_path) :
  (Navbar.count_true (Navbar.active_flags path) <= 1)%nat.
Proof.
  unfold Navbar.count_true. rewrite active_flags_route. cbv zeta.
  generalize (Navbar.current_route path) as r. intros r.
  decide_routes.
Qed.

(** The bar underlines a link exactly when it is active, so at most one
    link is underlined; Home and the chapter links are bold exactly when
    active, while the Forecast link is always bold. *)
Theorem navbar_link_style (path : Navbar.router_path) :
  (forall l, In l (NavbarView.navbar_links path) ->
     NavbarView.nl_text_decoration l = "underline" <-> NavbarView.nl_active l = true) /\
  (forall l, In l (NavbarView.navbar_links path) -> NavbarView.nl_label l <> "Forecast" ->
     NavbarView.nl_font_weight l = "bold" <-> NavbarView.nl_active l = true) /\
  (forall l, In l (NavbarView.navbar_links path) -> NavbarView.nl_label l = "Forecast" ->
     NavbarView.nl_font_weight l = "bold") /\
  (length (filter (fun l => String.eqb (NavbarView.nl_text_decoration l) "underline")
             (NavbarView.navbar_links path)) <= 1)%nat.
Proof.
  pose proof (active_flags_at_most_one path) as Hone.
  unfold Navbar.count_true, Navbar.active_flags in Hone.
  unfold NavbarView.navbar_links, NavbarView.std_link, ChapterNav.cond.
  destruct (Navbar.is_home_active path), (Navbar.is_data_collection_active path),
    (Navbar.is_eda_active path), (Navbar.is_modeling_active path),
    (Navbar.is_forecast_active path); simpl in Hone |- *;
    repeat split; intros; members; simpl in *;
    first [reflexivity | discriminate | lia | congruence].
Qed.

(** ** The chapter progress bar outside the chapter range *)

(** With [current] at most 0 (before the first chapter) no circle is drawn
    as current and nothing is amber; with [current] at least 5 (past the
    last chapter) no circle is current while every border and every
    connector is amber. *)
Theorem chapter_progress_out_of_range :
  (forall current, (current <= 0)%Z ->
     (forall c, In c (ChapterNav.circles (ChapterNav.chapter_progress current)) ->
        ChapterNav.in_current_style c = false /\ ChapterNav.amber_border c = false) /\
     (forall l, In l (ChapterNav.lines (ChapterNav.chapter_progress current)) ->
        ChapterNav.amber_line l = false)) /\
  (forall current, (5 <= current)%Z ->
     (forall c, In c (ChapterNav.circles (ChapterNav.chapter_progress current)) ->
        ChapterNav.in_current_style c = false /\ ChapterNav.amber_border c = true) /\
     (forall l, In l (ChapterNav.lines (ChapterNav.chapter_progress current)) ->
        ChapterNav.amber_line l = true)).
Proof.
  split; intros current Hc; split; intros x Hx;
    cbn -[Z.eqb Z.ltb] in Hx; members;
    unfold ChapterNav.in_current_style, ChapterNav.amber_border, ChapterNav.amber_line;
    cbn -[Z.eqb Z.ltb];
    first [split; settle_position | settle_position].
Qed.

(** ** Edge behaviour of the comparison table *)

(** With no data the comparison table is built with no rows and nothing is
    raised, with or without [highlight_best]: [max] is never called on an
    empty list. *)
Theorem comparison_empty_data (r2_value : string -> res pyfloat)
    (title description : string) (highlight_best : bool) :
  comparison_table_section r2_value title description [] highlight_best =
  Ok (mk_table title description []).
Proof. destruct highlight_best; reflexivity. Qed.

Lemma build_row_short (r2_value : string -> res pyfloat) (best : nat) (hb : bool)
    (idx : nat) (row : list string) :
  (length row < 5)%nat -> exists e, build_row r2_value best hb idx row = Raise e.
Proof.
  intros H. unfold build_row, getitem.
  destruct row as [|a [|b [|c [|d [|x row]]]]]; simpl in H; try lia;
    cbn; try (destruct (r2_value b)); cbn; eexists; reflexivity.
Qed.

Lemma build_rows_short (r2_value : string -> res pyfloat) (best : nat) (hb : bool)
    (data : list (list string)) (row : list string) :
  In row data -> (length row < 5)%nat ->
  forall idx, exists e, build_rows r2_value best hb idx data = Raise e.
Proof.
  intros Hin Hlen. induction data as [|r data IH]; intros idx; [destruct Hin|].
  cbn [build_rows]. destruct Hin as [-> | Hin].
  - destruct (build_row_short r2_value best hb idx row Hlen) as [e He].
    rewrite He. exists e. reflexivity.
  - destruct (build_row r2_value best hb idx r) as [tr | e]; cbn [bind].
    + destruct (IH Hin (S idx)) as [e He]. rewrite He. exists e. reflexivity.
    + exists e. reflexivity.
Qed.

(** A row with fewer than five entries makes [comparison_table_section]
    raise, whatever the other rows and [highlight_best]: it never returns a
    table in that case. *)
Theorem comparison_short_row_raises (r2_value : string -> res pyfloat)
    (title description : string) (data : list (list string)) (highlight_best : bool)
    (row : list string) :
  In row data -> (length row < 5)%nat ->
  exists e, comparison_table_section r2_value title description data highlight_best = Raise e.
Proof.
  intros Hin Hlen. unfold comparison_table_section.
  destruct (find_best r2_value data highlight_best) as [best | e]; cbn [bind].
  - destruct (build_rows_short r2_value best highlight_best data row Hin Hlen 0)
      as [e He].
    rewrite He. exists e. reflexivity.
  - exists e. reflexivity.
Qed.

Lemma comparison_short_row_raises_witness :
  exists e, comparison_table_section sample_float "t" "d"
              [["SVR"; "0.986"; "$59.93"; "$43.77"; "C=100"]; ["XGBoost"; "0.973"]] false
            = Raise e.
Proof.
  apply (comparison_short_row_raises sample_float "t" "d"
           [["SVR"; "0.986"; "$59.93"; "$43.77"; "C=100"]; ["XGBoost"; "0.973"]] false
           ["XGBoost"; "0.973"]).
  - in_list.
  - simpl. lia.
Defined.

(** ** Cells of the dataset preview *)

Lemma format_row_nth (fmt2 : Q -> string) (cols : list (string * Dataset.dtype))
    (row : list Dataset.cell) (j : nat) (name : string) (d : Dataset.dtype)
    (c : Dataset.cell) :
  nth_error cols j = Some (name, d) -> nth_error row j = Some c ->
  nth_error (Dataset.format_row fmt2 cols row) j =
    Some (if Dataset.is_float_dtype d then Dataset.format_float_cell fmt2 c else c).
Proof.
  unfold Dataset.format_row. revert row j.
  induction cols as [|col cols IH]; intros row j Hc Hr; [destruct j; discriminate|].
  destruct row as [|c' row]; [destruct j; discriminate|].
  destruct j as [|j]; simpl in Hc, Hr |- *.
  - injection Hc as ->. injection Hr as ->. reflexivity.
  - exact (IH row j Hc Hr).
Qed.

(** In the preview table, a missing value (NaN) is shown as "-" in a float
    column but as "nan" in any other column, and a float in a float column
    is shown with its two-decimal formatting (when that is not empty). *)
Theorem preview_cell_rendering (fmt2 float_str : Q -> string)
    (cols : list (string * Dataset.dtype)) (row : list Dataset.cell) (j : nat)
    (name : string) (d : Dataset.dtype) :
  nth_error cols j = Some (name, d) ->
  (nth_error row j = Some Dataset.CNaN ->
   nth_error (map (Dataset.render_cell float_str) (Dataset.format_row fmt2 cols row)) j =
     Some (if Dataset.is_float_dtype d then "-" else "nan")) /\
  (forall q, nth_error row j = Some (Dataset.CFloat q) ->
   Dataset.is_float_dtype d = true -> fmt2 q <> "" ->
   nth_error (map (Dataset.render_cell float_str) (Dataset.format_row fmt2 cols row)) j =
     Some (fmt2 q)).
Proof.
  intros Hc. split.
  - intros Hr. rewrite nth_error_map, (format_row_nth fmt2 cols row j name d _ Hc Hr).
    destruct (Dataset.is_float_dtype d); reflexivity.
  - intros q Hr Hd Hq. rewrite nth_error_map, (format_row_nth fmt2 cols row j name d _ Hc Hr), Hd.
    simpl. destruct (String.eqb_spec (fmt2 q) ""); [contradiction | reflexivity].
Qed.

Lemma preview_cell_rendering_witness :
  nth_error (map (Dataset.render_cell (fun _ => "1.0"))
               (Dataset.format_row (fun _ => "1.00")
                  [("Date", Dataset.Object); ("Gold", Dataset.Float64)]
                  [Dataset.CNaN; Dataset.CNaN])) 1 = Some "-".
Proof.
  exact (proj1 (preview_cell_rendering (fun _ => "1.00") (fun _ => "1.0")
           [("Date", Dataset.Object); ("Gold", Dataset.Float64)]
           [Dataset.CNaN; Dataset.CNaN] 1 "Gold" Dataset.Float64 eq_refl) eq_refl).
Defined.

(** ** Feature items of the data collection page *)

Lemma string_length_app (a b : string) :
  String.length (a ++ b) = (String.length a + String.length b)%nat.
Proof. induction a as [|c a IH]; simpl; [reflexivity | rewrite IH; reflexivity]. Qed.

(** A feature item's trigger text always starts with the feature name and
    the dialog title is the name; the "Ticker/ID" line is shown exactly when
    the ticker is a non-empty string, which is exactly when the trigger text
    differs from the bare name, and then the trigger reads
    "name (ticker)". *)
Theorem feature_item_ticker (feature_name : string) (feature_ticker : option string)
    (description : string) :
  let v := DataCollection.feature_item_with_dialog feature_name feature_ticker description in
  prefix feature_name (DataCollection.fv_trigger v) = true /\
  DataCollection.fv_title v = feature_name /\
  (DataCollection.fv_ticker_line v <> None <-> DataCollection.truthy feature_ticker = true) /\
  (DataCollection.fv_trigger v <> feature_name <-> DataCollection.truthy feature_ticker = true) /\
  (forall t, feature_ticker = Some t -> t <> "" ->
     DataCollection.fv_trigger v = feature_name ++ " (" ++ t ++ ")" /\
     DataCollection.fv_ticker_line v = Some t).
Proof.
  unfold DataCollection.feature_item_with_dialog, DataCollection.truthy. cbv zeta.
  destruct feature_ticker as [t|]; simpl.
  - destruct (String.eqb_spec t "") as [->|Ht]; simpl.
    + split; [rewrite <- (append_empty_r feature_name) at 2; apply prefix_app|].
      repeat split; intros; try congruence; contradiction.
    + split; [apply prefix_app|]. split; [reflexivity|].
      split; [split; [reflexivity | discriminate]|].
      split; [split; [reflexivity|] | intros t' [= <-] _; split; reflexivity].
      intros _ E. apply (f_equal String.length) in E.
      rewrite string_length_app in E. simpl in E. lia.
  - split; [rewrite <- (append_empty_r feature_name) at 2; apply prefix_app|].
    repeat split; intros; try congruence; discriminate.
Qed.

(** ** The chart loader reads only its own cache file *)

(** [load_plotly_chart name] depends on the file system only through the
    file [goldsight/data/cache/<name>.json]: two file systems that agree on
    that file give the same result. *)
Theorem load_plotly_chart_local (json_load : string -> res ChartLoader.json)
    (go_Figure : ChartLoader.json -> res ChartLoader.figure)
    (fs1 fs2 : ChartLoader.filesystem) (chart_name : string) :
  fs1 (ChartLoader.cache_path chart_name) = fs2 (ChartLoader.cache_path chart_name) ->
  ChartLoader.load_plotly_chart json_load go_Figure fs1 chart_name =
  ChartLoader.load_plotly_chart json_load go_Figure fs2 chart_name.
Proof.
  intros H. unfold ChartLoader.load_plotly_chart, ChartLoader.load_body,
    ChartLoader.path_exists, ChartLoader.open_read. cbv zeta.
  rewrite H. reflexivity.
Qed.

Lemma load_plotly_chart_local_witness :
  ChartLoader.load_plotly_chart (fun _ => Ok ChartLoader.JNull)
    (fun _ => Ok ChartLoader.empty_figure)
    (fun p => if String.eqb p (ChartLoader.cache_path "price_trend")
              then ChartLoader.Present "{}" else ChartLoader.Missing)
    "price_trend" =
  ChartLoader.load_plotly_chart (fun _ => Ok ChartLoader.JNull)
    (fun _ => Ok ChartLoader.empty_figure)
    (fun _ => ChartLoader.Present "{}")
    "price_trend".
Proof.
  apply load_plotly_chart_local. vm_compute. reflexivity.
Defined.
